(** * firebase-functions-api: the request handlers of [index.js]

    The handlers are embedded as programs over the platform clients they
    await (document store, identity provider, push messaging).  A program
    is a tree whose nodes are the awaited client calls and whose branches
    are the two ways a call can settle, so that the [try]/[catch] of every
    handler is written out as it is in the source. *)

From Stdlib Require Import Floats.
From stdpp Require Import gmap strings list fin_maps pretty.

Set Warnings "-register-all".
Set Default Proof Using "Type".

(** ** JavaScript values *)

(** The values the handlers touch: what [express.json()] parses (null,
    booleans, IEEE doubles, strings, arrays, objects), [undefined] for an
    absent property, the sentinel [FieldValue.serverTimestamp()], and the
    timestamp the store holds once the sentinel is resolved. *)
Inductive value : Type :=
| VUndefined
| VNull
| VBool (b : bool)
| VNum (f : float)
| VStr (s : string)
| VArr (l : list value)
| VObj (o : gmap string value)
| VServerTimestamp
| VTime (t : nat).

Abbreviation object := (gmap string value) (only parsing).

(** [!v] is [negb (truthy v)]: undefined, null, false, 0, -0, NaN and the
    empty string are falsy, everything else is truthy. *)
Definition truthy (v : value) : bool :=
  match v with
  | VUndefined | VNull => false
  | VBool b => b
  | VNum f => negb (PrimFloat.is_zero f || PrimFloat.is_nan f)
  | VStr s => negb (String.eqb s "")
  | VArr _ | VObj _ | VServerTimestamp | VTime _ => true
  end.

Definition is_undefined (v : value) : bool :=
  match v with VUndefined => true | _ => false end.

(** [o.k], and [const { k } = o]: an absent property reads as undefined. *)
Definition get (o : object) (k : string) : value :=
  default VUndefined (o !! k).

(** [const { k = d } = o]: the default replaces an undefined property. *)
Definition get_or (o : object) (k : string) (d : value) : value :=
  if is_undefined (get o k) then d else get o k.

(** [v.k] on a response body. *)
Definition field (v : value) (k : string) : value :=
  match v with VObj o => get o k | _ => VUndefined end.

(** An object literal [{ k1: v1, ..., kn: vn }]; every listed key becomes
    an own property, also when its value is undefined. *)
Definition obj (kvs : list (string * value)) : object := list_to_map kvs.

(** [{ id: i, ...d }]: the key [id] is written first and the own
    properties of [d] are copied over it; spreading undefined (the
    [data()] of a missing document) copies nothing. *)
Definition with_id (i : string) (d : option object) : object :=
  default ∅ d ∪ {[ "id" := VStr i ]}.

(** The properties a destructuring pattern reads off a callable payload:
    destructuring null or undefined throws a TypeError, a primitive or an
    array has none of the properties the handlers name. *)
Definition properties (v : value) : option object :=
  match v with
  | VUndefined | VNull => None
  | VObj o => Some o
  | _ => Some ∅
  end.

(** ** Responses *)

Record response := Response { status : nat; json : value }.

(** [res.json(v)] and [res.status(n).json(v)]. *)
Definition res_json (v : value) : response := Response 200 v.
Definition res_status_json (n : nat) (v : value) : response := Response n v.

Record exn := Exn { message : string }.

(** What an [onCall] handler settles to. *)
Inductive thrown :=
| HttpsError (code msg : string)
| TypeError.

Inductive callable_result :=
| Resolved (v : value)
| Rejected (t : thrown).

Record auth_data := AuthData { caller_uid : string }.
Record context := Context { auth : option auth_data }.

(** ** Client calls *)

Record doc_snapshot := DocSnapshot { snap_id : string; snap_data : option object }.
Record user_record := UserRecord { user_uid : string; user_email : value }.

Definition snap_exists (d : doc_snapshot) : bool :=
  match snap_data d with Some _ => true | None => false end.

Inductive call :=
| QueryGet (coll : string) (limit : nat)
  (* admin.firestore().collection(coll).limit(limit).get() *)
| CollAdd (coll : string) (data : object)
  (* admin.firestore().collection(coll).add(data) *)
| DocGet (coll id : string)
  (* admin.firestore().collection(coll).doc(id).get() *)
| DocUpdate (coll id : string) (data : object)
  (* admin.firestore().collection(coll).doc(id).update(data) *)
| DocDelete (coll id : string)
  (* admin.firestore().collection(coll).doc(id).delete() *)
| AuthCreateUser (props : object)
  (* admin.auth().createUser(props) *)
| MessagingSend (msg : object).
  (* admin.messaging().send(msg) *)

(** What each call resolves to, as far as the handlers look at it: the
    documents of a query snapshot in iteration order, the [id] of a
    document reference, a document snapshot, nothing, a user record, a
    message id. *)
Definition reply (c : call) : Type :=
  match c with
  | QueryGet _ _ => list (string * object)
  | CollAdd _ _ => string
  | DocGet _ _ => doc_snapshot
  | DocUpdate _ _ _ => unit
  | DocDelete _ _ => unit
  | AuthCreateUser _ => user_record
  | MessagingSend _ => string
  end.

Inductive outcome (X : Type) :=
| Returned (x : X)
| Threw (error : exn).
Arguments Returned {X} x.
Arguments Threw {X} error.

(** A handler body: it responds, or awaits a call and goes on with the way
    the call settled. *)
Inductive prog (A : Type) :=
| Ret (a : A)
| Await (c : call) (k : outcome (reply c) → prog A).
Arguments Ret {A} a.
Arguments Await {A} c k.

(** ** The Express routes *)

Module Api.

(** The [catch] block every route ends with. *)
Definition catch (error : exn) : response :=
  res_status_json 500 (VObj (obj [("error", VStr (message error))])).

Definition health (iso_now : string) : prog response :=
  Ret (res_json (VObj (obj [("status", VStr "healthy");
                            ("timestamp", VStr iso_now);
                            ("service", VStr "firebase-functions-api")]))).

(** [snapshot.forEach(doc => list.push({ id: doc.id, ...doc.data() }))] *)
Definition collect (snapshot : list (string * object)) : list value :=
  (λ doc, VObj (with_id doc.1 (Some doc.2))) <$> snapshot.

Definition get_users : prog response :=
  Await (QueryGet "users" 50) (λ o,
    match o with
    | Returned usersSnapshot =>
        let users := collect usersSnapshot in
        Ret (res_json (VObj (obj [("users", VArr users)])))
    | Threw error => Ret (catch error)
    end).

Definition userData (body : object) : object :=
  let name := get body "name" in
  let email := get body "email" in
  let role := get_or body "role" (VStr "user") in
  obj [("name", name); ("email", email); ("role", role);
       ("createdAt", VServerTimestamp); ("updatedAt", VServerTimestamp)].

Definition post_users (body : object) : prog response :=
  let name := get body "name" in
  let email := get body "email" in
  if negb (truthy name) || negb (truthy email) then
    Ret (res_status_json 400
           (VObj (obj [("error", VStr "Name and email are required")])))
  else
    Await (CollAdd "users" (userData body)) (λ o,
      match o with
      | Returned docRef =>
          Ret (res_status_json 201 (VObj (with_id docRef (Some (userData body)))))
      | Threw error => Ret (catch error)
      end).

Definition get_user (id : string) : prog response :=
  Await (DocGet "users" id) (λ o,
    match o with
    | Returned doc =>
        if negb (snap_exists doc) then
          Ret (res_status_json 404 (VObj (obj [("error", VStr "User not found")])))
        else
          Ret (res_json (VObj (with_id (snap_id doc) (snap_data doc))))
    | Threw error => Ret (catch error)
    end).

Definition get_todos : prog response :=
  Await (QueryGet "todos" 50) (λ o,
    match o with
    | Returned todosSnapshot =>
        let todos := collect todosSnapshot in
        Ret (res_json (VObj (obj [("todos", VArr todos)])))
    | Threw error => Ret (catch error)
    end).

Definition todoData (body : object) : object :=
  let title := get body "title" in
  let description := get body "description" in
  let completed := get_or body "completed" (VBool false) in
  obj [("title", title); ("description", description); ("completed", completed);
       ("createdAt", VServerTimestamp); ("updatedAt", VServerTimestamp)].

Definition post_todos (body : object) : prog response :=
  let title := get body "title" in
  if negb (truthy title) then
    Ret (res_status_json 400 (VObj (obj [("error", VStr "Title is required")])))
  else
    Await (CollAdd "todos" (todoData body)) (λ o,
      match o with
      | Returned docRef =>
          Ret (res_status_json 201 (VObj (with_id docRef (Some (todoData body)))))
      | Threw error => Ret (catch error)
      end).

(** [if (v !== undefined) updateData.k = v] *)
Definition assign_defined (k : string) (v : value) (o : object) : object :=
  if is_undefined v then o else <[ k := v ]> o.

Definition updateData (body : object) : object :=
  let title := get body "title" in
  let description := get body "description" in
  let completed := get body "completed" in
  assign_defined "completed" completed
    (assign_defined "description" description
       (assign_defined "title" title
          (obj [("updatedAt", VServerTimestamp)]))).

Definition put_todo (id : string) (body : object) : prog response :=
  Await (DocUpdate "todos" id (updateData body)) (λ o,
    match o with
    | Returned _ =>
        Await (DocGet "todos" id) (λ o',
          match o' with
          | Returned updatedDoc =>
              Ret (res_json (VObj (with_id (snap_id updatedDoc) (snap_data updatedDoc))))
          | Threw error => Ret (catch error)
          end)
    | Threw error => Ret (catch error)
    end).

Definition delete_todo (id : string) : prog response :=
  Await (DocDelete "todos" id) (λ o,
    match o with
    | Returned _ =>
        Ret (res_json (VObj (obj [("message", VStr "Todo deleted successfully")])))
    | Threw error => Ret (catch error)
    end).

(** The routing table of [app]. *)
Inductive request :=
| GET_health
| GET_users
| POST_users (body : object)
| GET_users_id (id : string)
| GET_todos
| POST_todos (body : object)
| PUT_todos_id (id : string) (body : object)
| DELETE_todos_id (id : string).

Definition app (iso_now : string) (r : request) : prog response :=
  match r with
  | GET_health => health iso_now
  | GET_users => get_users
  | POST_users body => post_users body
  | GET_users_id id => get_user id
  | GET_todos => get_todos
  | POST_todos body => post_todos body
  | PUT_todos_id id body => put_todo id body
  | DELETE_todos_id id => delete_todo id
  end.

End Api.

(** ** The callable functions *)

Module Callable.

Definition unauthenticated : callable_result :=
  Rejected (HttpsError "unauthenticated" "User must be authenticated").

Definition createUser (data : value) (context : context) : prog callable_result :=
  match auth context with
  | None => Ret unauthenticated
  | Some _ =>
      match properties data with
      | None => Ret (Rejected TypeError)
      | Some d =>
          let email := get d "email" in
          let displayName := get d "displayName" in
          Await (AuthCreateUser (obj [("email", email); ("displayName", displayName);
                                      ("emailVerified", VBool false)])) (λ o,
            match o with
            | Returned user =>
                Ret (Resolved (VObj (obj [("uid", VStr (user_uid user));
                                          ("email", user_email user)])))
            | Threw error => Ret (Rejected (HttpsError "internal" (message error)))
            end)
      end
  end.

Definition sendNotification (data : value) (context : context) : prog callable_result :=
  match auth context with
  | None => Ret unauthenticated
  | Some _ =>
      match properties data with
      | None => Ret (Rejected TypeError)
      | Some d =>
          let token := get d "token" in
          let title := get d "title" in
          let body := get d "body" in
          let msg :=
            obj [("token", token);
                 ("notification", VObj (obj [("title", title); ("body", body)]))] in
          Await (MessagingSend msg) (λ o,
            match o with
            | Returned response =>
                Ret (Resolved (VObj (obj [("success", VBool true);
                                          ("messageId", VStr response)])))
            | Threw error => Ret (Rejected (HttpsError "internal" (message error)))
            end)
      end
  end.

End Callable.

(** ** Running a handler against the platform *)

(** A model of the platform answers every call from its state.  The
    handlers are checked against every such model where a property is
    about what they do with an answer, and against [Platform.model] below
    where it is about the documents in the store. *)
Record client (S : Type) := Client {
  handle : ∀ c : call, S → outcome (reply c) * S
}.
Arguments Client {S} handle.
Arguments handle {S} cl c s : rename.

Record event := Event { ev_call : call; ev_error : option exn }.

Definition error_of {X} (o : outcome X) : option exn :=
  match o with Returned _ => None | Threw error => Some error end.

(** The value a program settles to, the state the platform is left in, and
    the calls that were issued, in order. *)
Fixpoint run {S A} (cl : client S) (p : prog A) (s : S) : A * S * list event :=
  match p with
  | Ret a => (a, s, [])
  | Await c k =>
      let os := handle cl c s in
      let r := run cl (k os.1) os.2 in
      (r.1.1, r.1.2, Event c (error_of os.1) :: r.2)
  end.

Definition result_of {S A} (r : A * S * list event) : A := r.1.1.
Definition state_of {S A} (r : A * S * list event) : S := r.1.2.
Definition calls_of {S A} (r : A * S * list event) : list event := r.2.

Module Platform.

(** Modelled from the spec: the document store, identity provider and push
    messaging clients ([firebase-admin]) are external to the repository.
    The store keeps, per named collection, schemaless documents under an
    opaque identifier it assigns on insert; a write resolves the
    server-timestamp sentinel to the store's clock; update merges the
    given fields into an existing document and fails on a missing one;
    delete removes the document whether or not it exists; a query with a
    limit returns at most that many documents of the collection. *)
Record state := State {
  firestore : gmap string (gmap string object);
  now : nat;
  accounts : list object;
  outbox : list object
}.

Definition collection (s : state) (coll : string) : gmap string object :=
  default ∅ (firestore s !! coll).

Definition with_firestore (f : gmap string (gmap string object)) (s : state) : state :=
  State f (now s) (accounts s) (outbox s).

(** A field as the store keeps it: undefined is not a stored value, the
    sentinel becomes the time of the write. *)
Definition stored_field (t : nat) (v : value) : option value :=
  match v with
  | VUndefined => None
  | VServerTimestamp => Some (VTime t)
  | _ => Some v
  end.

Definition stored (t : nat) (data : object) : object :=
  omap (stored_field t) data.

Definition candidate (n : nat) : string := "doc" +:+ pretty n.

Fixpoint first_free (docs : gmap string object) (n fuel : nat) : string :=
  match fuel with
  | 0 => candidate n
  | S fuel =>
      match docs !! candidate n with
      | None => candidate n
      | Some _ => first_free docs (S n) fuel
      end
  end.

(** Modelled from the spec: the opaque identifier the store assigns on
    insert, which is not empty and not in use in the collection. *)
Definition auto_id (docs : gmap string object) : string :=
  first_free docs 0 (S (size docs)).

Definition not_found (coll id : string) : exn :=
  Exn ("NOT_FOUND: No document to update: " +:+ coll +:+ "/" +:+ id).

(** Modelled from the spec: how the platform settles each call.  The
    store's calls follow the spec's data model and lifecycle (insert under
    a store-assigned identifier, read by identifier, query with a limit,
    update as a partial merge, unconditional delete); the identity and
    messaging calls record what they were given and return a new
    identifier. *)
Definition answer (c : call) : state → outcome (reply c) * state :=
  match c with
  | QueryGet coll limit => λ s,
      (Returned (take limit (map_to_list (collection s coll))), s)
  | CollAdd coll data => λ s,
      let docs := collection s coll in
      let id := auto_id docs in
      (Returned id,
       with_firestore (<[coll := <[id := stored (now s) data]> docs]> (firestore s)) s)
  | DocGet coll id => λ s,
      (Returned (DocSnapshot id (collection s coll !! id)), s)
  | DocUpdate coll id data => λ s,
      match collection s coll !! id with
      | Some old =>
          (Returned tt,
           with_firestore
             (<[coll := <[id := stored (now s) data ∪ old]> (collection s coll)]>
                (firestore s)) s)
      | None => (Threw (not_found coll id), s)
      end
  | DocDelete coll id => λ s,
      (Returned tt, with_firestore (alter (delete id) coll (firestore s)) s)
  | AuthCreateUser props => λ s,
      (Returned (UserRecord ("uid" +:+ pretty (length (accounts s))) (get props "email")),
       State (firestore s) (now s) (accounts s ++ [props]) (outbox s))
  | MessagingSend msg => λ s,
      (Returned ("msg" +:+ pretty (length (outbox s))),
       State (firestore s) (now s) (accounts s) (outbox s ++ [msg]))
  end.

Definition model : client state := Client answer.

End Platform.

(** A small store used to run the handlers on concrete requests. *)
Module Sample.

Definition milk : object :=
  obj [("title", VStr "Buy milk"); ("description", VStr "2 litres");
       ("completed", VBool false); ("createdAt", VTime 3); ("updatedAt", VTime 3)].

Definition ada : object :=
  obj [("name", VStr "Ada"); ("email", VStr "ada@example.org"); ("role", VStr "admin");
       ("createdAt", VTime 1); ("updatedAt", VTime 1)].

(** A user document that carries a field named [id] of its own. *)
Definition imported : object :=
  obj [("id", VStr "legacy-7"); ("name", VStr "Bob"); ("email", VStr "bob@example.org");
       ("role", VStr "user"); ("createdAt", VTime 2); ("updatedAt", VTime 2)].

Definition store : Platform.state :=
  Platform.State
    (list_to_map [("users", list_to_map [("u1", ada); ("u2", imported)]);
                  ("todos", list_to_map [("t1", milk)])])
    10 [] [].

End Sample.


(** The first binding of [k] in an object literal, which is what reading
    the property off the finished object gives. *)
Fixpoint literal_lookup (k : string) (kvs : list (string * value)) : option value :=
  match kvs with
  | [] => None
  | kv :: kvs => if String.eqb kv.1 k then Some kv.2 else literal_lookup k kvs
  end.

(** A response element [v] for the stored document [d] with identifier
    [id]: every field of [d] other than [id] is in [v] as stored, and the
    key [id] holds the field [id] of [d] when it has one, the identifier
    otherwise. *)
Definition id_merged (id : string) (d : object) (v : value) : Prop :=
  ∃ o : object,
    v = VObj o ∧
    (∀ k, k ≠ "id" → o !! k = d !! k) ∧
    o !! "id" = Some (default (VStr id) (d !! "id")).

(** The handler [p] answers 200 with [{ coll: items }], where [items] are
    built from [min 50 n] distinct documents of the [n] in collection
    [coll], and leaves the store as it was. *)
Definition lists_collection (s : Platform.state) (coll : string) (p : prog response) : Prop :=
  ∃ (docs : list (string * object)) (items : list value),
    length docs = 50 `min` size (Platform.collection s coll) ∧
    length docs ≤ 50 ∧
    NoDup docs.*1 ∧
    (∀ id d, (id, d) ∈ docs → Platform.collection s coll !! id = Some d) ∧
    Forall2 (λ doc item, id_merged doc.1 doc.2 item) docs items ∧
    result_of (run Platform.model p s) = Response 200 (VObj (obj [(coll, VArr items)])) ∧
    state_of (run Platform.model p s) = s.

(** ** What a route may call *)

(** The collection a store call addresses; the identity and messaging
    calls address none. *)
Definition call_collection (c : call) : option string :=
  match c with
  | QueryGet coll _ | CollAdd coll _ | DocGet coll _
  | DocUpdate coll _ _ | DocDelete coll _ => Some coll
  | AuthCreateUser _ | MessagingSend _ => None
  end.

(** The calls that read the store. *)
Definition is_read (c : call) : bool :=
  match c with
  | QueryGet _ _ | DocGet _ _ => true
  | _ => false
  end.

(** The collection named in the handler of each route. *)
Definition route_collection (r : Api.request) : option string :=
  match r with
  | Api.GET_health => None
  | Api.GET_users | Api.POST_users _ | Api.GET_users_id _ => Some "users"
  | Api.GET_todos | Api.POST_todos _ | Api.PUT_todos_id _ _
  | Api.DELETE_todos_id _ => Some "todos"
  end.

Definition is_get (r : Api.request) : bool :=
  match r with
  | Api.GET_health | Api.GET_users | Api.GET_users_id _ | Api.GET_todos => true
  | _ => false
  end.

(** The status codes written in the handler of each route. *)
Definition route_statuses (r : Api.request) : list nat :=
  match r with
  | Api.GET_health => [200]
  | Api.GET_users | Api.GET_todos => [200; 500]
  | Api.GET_users_id _ => [200; 404; 500]
  | Api.POST_users _ | Api.POST_todos _ => [201; 400; 500]
  | Api.PUT_todos_id _ _ | Api.DELETE_todos_id _ => [200; 500]
  end.

(** No stored document has a field named [id]. *)
Definition no_id_field (s : Platform.state) : Prop :=
  ∀ coll id d, Platform.collection s coll !! id = Some d → d !! "id" = None.

(** A store in which every update is accepted and every document read
    finds nothing, as when the document is deleted by someone else between
    the update and the read that follows it. *)
Module Vanishing.

Definition answer (c : call) : unit → outcome (reply c) * unit :=
  match c with
  | QueryGet _ _ => λ s, (Returned [], s)
  | CollAdd _ _ => λ s, (Returned "doc0", s)
  | DocGet _ id => λ s, (Returned (DocSnapshot id None), s)
  | DocUpdate _ _ _ => λ s, (Returned tt, s)
  | DocDelete _ _ => λ s, (Returned tt, s)
  | AuthCreateUser props => λ s, (Threw (Exn "auth/invalid-email"), s)
  | MessagingSend _ => λ s, (Threw (Exn "messaging/invalid-argument"), s)
  end.

Definition model : client unit := Client answer.

End Vanishing.

(** A store like the sample one in which no document has a field [id]. *)
Module Clean.

Definition store : Platform.state :=
  Platform.State
    (list_to_map [("users", list_to_map [("u1", Sample.ada)]);
                  ("todos", list_to_map [("t1", Sample.milk)])])
    10 [] [].

End Clean.

(** * Properties *)

(** ** Values and objects *)

Lemma truthy_VStr s : truthy (VStr s) = true ↔ s ≠ "".
Proof.
  simpl. rewrite negb_true_iff. split.
  - intros H ->. discriminate.
  - intros H. apply String.eqb_neq. exact H.
Qed.

Lemma get_lookup (o : object) k v : o !! k = Some v → get o k = v.
Proof. unfold get. by intros ->. Qed.

Lemma get_absent (o : object) k : o !! k = None → get o k = VUndefined.
Proof. unfold get. by intros ->. Qed.



Lemma obj_lookup kvs k : obj kvs !! k = literal_lookup k kvs.
Proof.
  unfold obj. induction kvs as [|[k' v] kvs IH]; [done|].
  cbn [list_to_map foldr literal_lookup fst snd uncurry]. simpl.
  destruct (String.eqb_spec k' k) as [->|Hne].
  - apply lookup_insert_eq.
  - rewrite lookup_insert_ne; done.
Qed.

Lemma with_id_own i (d : object) k v :
  d !! k = Some v → with_id i (Some d) !! k = Some v.
Proof. intros H. unfold with_id. simpl. by apply lookup_union_Some_l. Qed.

Lemma with_id_other i (d : object) k :
  k ≠ "id" → with_id i (Some d) !! k = d !! k.
Proof.
  intros H. unfold with_id. simpl.
  destruct (d !! k) as [v|] eqn:E.
  - by apply lookup_union_Some_l.
  - apply lookup_union_None. split; [done|]. by apply lookup_singleton_ne.
Qed.

Lemma with_id_fresh i (d : object) :
  d !! "id" = None → with_id i (Some d) !! "id" = Some (VStr i).
Proof.
  intros H. unfold with_id. simpl. rewrite lookup_union_r; [|done].
  apply lookup_singleton_eq.
Qed.

(** ** The store model *)

Module PlatformFacts.
Import Platform.


#[local] Instance candidate_inj : Inj (=) (=) candidate.
Proof.
  intros n m H. unfold candidate in H. simpl in H.
  injection H as H. by apply (inj pretty).
Qed.


(** The search stops on an unused candidate, or every candidate it looked
    at is in use. *)
Lemma first_free_spec docs n fuel :
  docs !! first_free docs n fuel = None ∨
  ∀ i, n ≤ i < n + fuel → is_Some (docs !! candidate i).
Proof.
  revert n. induction fuel as [|fuel IH]; intros n; simpl.
  - right. intros i Hi. lia.
  - destruct (docs !! candidate n) as [d|] eqn:E; [|by left].
    destruct (IH (S n)) as [H|H]; [by left|]. right.
    intros i Hi. destruct (decide (i = n)) as [->|Hne].
    + by rewrite E.
    + apply H. lia.
Qed.


Lemma auto_id_fresh docs : docs !! auto_id docs = None.
Proof.
  unfold auto_id. destruct (first_free_spec docs 0 (S (size docs))) as [H|H]; [done|].
  exfalso.
  assert (candidate <$> seq 0 (S (size docs)) ⊆+ (map_to_list docs).*1) as Hsub.
  { apply NoDup_submseteq.
    - apply (NoDup_fmap_2 candidate), NoDup_seq.
    - intros x Hx. apply list_elem_of_fmap in Hx as (i & -> & Hi).
      apply elem_of_seq in Hi. destruct (H i) as [d Hd]; [lia|].
      apply list_elem_of_fmap. exists (candidate i, d). split; [done|].
      by apply elem_of_map_to_list. }
  apply submseteq_length in Hsub.
  rewrite !length_fmap, length_seq, length_map_to_list in Hsub. lia.
Qed.

Lemma collection_with_firestore f s coll :
  collection (with_firestore f s) coll = default ∅ (f !! coll).
Proof. done. Qed.

End PlatformFacts.

(** ** Handlers against any model of the platform *)

Section AnyClient.
Context {S : Type} (cl : client S).

Lemma run_await {A} c (k : outcome (reply c) → prog A) s :
  run cl (Await c k) s =
  ((run cl (k (handle cl c s).1) (handle cl c s).2).1.1,
   (run cl (k (handle cl c s).1) (handle cl c s).2).1.2,
   Event c (error_of (handle cl c s).1) :: (run cl (k (handle cl c s).1) (handle cl c s).2).2).
Proof. reflexivity. Qed.

Lemma post_users_invalid s body :
  truthy (get body "name") = false ∨ truthy (get body "email") = false →
  run cl (Api.post_users body) s =
  (Response 400 (VObj (obj [("error", VStr "Name and email are required")])), s, []).
Proof.
  intros H. unfold Api.post_users.
  replace (negb (truthy (get body "name")) || negb (truthy (get body "email")))
    with true; [done|].
  destruct H as [-> | ->]; [done|]. by rewrite orb_true_r.
Qed.

Lemma post_users_valid body :
  truthy (get body "name") = true → truthy (get body "email") = true →
  Api.post_users body =
  Await (CollAdd "users" (Api.userData body)) (λ o,
    match o with
    | Returned docRef =>
        Ret (Response 201 (VObj (with_id docRef (Some (Api.userData body)))))
    | Threw error => Ret (Api.catch error)
    end).
Proof. intros Hn He. unfold Api.post_users. by rewrite Hn, He. Qed.

Lemma post_todos_valid body :
  truthy (get body "title") = true →
  Api.post_todos body =
  Await (CollAdd "todos" (Api.todoData body)) (λ o,
    match o with
    | Returned docRef =>
        Ret (Response 201 (VObj (with_id docRef (Some (Api.todoData body)))))
    | Threw error => Ret (Api.catch error)
    end).
Proof. intros Ht. unfold Api.post_todos. by rewrite Ht. Qed.

(** C1: for every request body in which name is missing or empty, or
    email is missing or empty, POST /users answers 400 with an error
    object, issues no call to the store, and leaves the platform state
    as it was, whatever the platform is. *)
Theorem post_users_missing_field s (body : object) :
  body !! "name" = None ∨ body !! "name" = Some (VStr "") ∨
  body !! "email" = None ∨ body !! "email" = Some (VStr "") →
  let r := run cl (Api.post_users body) s in
  result_of r = Response 400 (VObj (obj [("error", VStr "Name and email are required")])) ∧
  calls_of r = [] ∧
  state_of r = s.
Proof.
  intros H r. subst r. rewrite post_users_invalid; [done|].
  destruct H as [H|[H|[H|H]]].
  - left. by rewrite (get_absent _ _ H).
  - left. by rewrite (get_lookup _ _ _ H).
  - right. by rewrite (get_absent _ _ H).
  - right. by rewrite (get_lookup _ _ _ H).
Qed.

(** C7: a callable invocation of createUser or sendNotification whose
    context carries no authenticated identity is rejected with the
    unauthenticated error, issues no call to the identity provider or
    the messaging client, and leaves the platform state as it was. *)
Theorem callable_requires_auth s (data : value) (ctx : context) :
  auth ctx = None →
  run cl (Callable.createUser data ctx) s =
    (Rejected (HttpsError "unauthenticated" "User must be authenticated"), s, []) ∧
  run cl (Callable.sendNotification data ctx) s =
    (Rejected (HttpsError "unauthenticated" "User must be authenticated"), s, []).
Proof.
  intros H. unfold Callable.createUser, Callable.sendNotification.
  rewrite H. split; reflexivity.
Qed.

Lemma delete_todo_settles s id :
  let r := result_of (run cl (Api.delete_todo id) s) in
  r = Response 200 (VObj (obj [("message", VStr "Todo deleted successfully")])) ∨
  ∃ error, r = Response 500 (VObj (obj [("error", VStr (message error))])).
Proof.
  unfold Api.delete_todo. rewrite run_await. unfold result_of. cbn [fst].
  destruct (handle cl (DocDelete "todos" id) s).1 as [[]|error].
  - by left.
  - right. by exists error.
Qed.

(** C8: whatever the route and whatever the platform, when a call the
    handler awaited threw, the response is 500 and its [error] field is
    the message of the exception, unchanged. *)
Theorem store_exception_is_500 iso_now (r : Api.request) s c error :
  Event c (Some error) ∈ calls_of (run cl (Api.app iso_now r) s) →
  result_of (run cl (Api.app iso_now r) s) =
    Response 500 (VObj (obj [("error", VStr (message error))])).
Proof.
  unfold calls_of, result_of.
  destruct r as [| |body|id| |body|id body|id]; cbn [Api.app];
    unfold Api.health, Api.get_users, Api.post_users, Api.get_user, Api.get_todos,
      Api.post_todos, Api.put_todo, Api.delete_todo;
    try match goal with |- context [if ?b then _ else _] => destruct b end;
    cbn [run fst snd];
    repeat match goal with
      | |- context [handle cl ?c ?s] =>
          destruct (handle cl c s) as [[?|?] ?]; cbn [run fst snd error_of]
      end;
    try match goal with |- context [if ?b then _ else _] => destruct b end;
    cbn [run fst snd]; intros H;
    repeat (apply elem_of_cons in H as [H|H]);
    try (by apply elem_of_nil in H); by simplify_eq.
Qed.

(** C10: when the body of POST /todos has a non-empty title and no
    description, the document handed to the store's insert binds the key
    description to undefined (the default false is applied to completed
    only), and so does the body of the 201 response once the insert has
    returned. *)
Theorem post_todos_description_undefined s (body : object) (t : string) :
  body !! "title" = Some (VStr t) → t ≠ "" →
  body !! "description" = None →
  let r := run cl (Api.post_todos body) s in
  ∃ data : object,
    ev_call <$> calls_of r = [CollAdd "todos" data] ∧
    data !! "description" = Some VUndefined ∧
    (body !! "completed" = None → data !! "completed" = Some (VBool false)) ∧
    ∀ docRef s', handle cl (CollAdd "todos" data) s = (Returned docRef, s') →
      ∃ o : object, result_of r = Response 201 (VObj o) ∧
                    o !! "description" = Some VUndefined.
Proof.
  intros Ht Hne Hd r. subst r.
  assert (Api.todoData body !! "description" = Some VUndefined) as Hdata.
  { unfold Api.todoData. rewrite obj_lookup. simpl. by rewrite (get_absent _ _ Hd). }
  rewrite post_todos_valid
    by (rewrite (get_lookup _ _ _ Ht); by apply truthy_VStr).
  exists (Api.todoData body). repeat split.
  - unfold calls_of. cbn [run snd].
    by destruct (handle cl (CollAdd "todos" (Api.todoData body)) s) as [[?|?] ?].
  - exact Hdata.
  - intros Hc. unfold Api.todoData. rewrite obj_lookup. simpl.
    unfold get_or. by rewrite (get_absent _ _ Hc).
  - intros docRef s' Hadd. unfold result_of. cbn [run]. rewrite Hadd. cbn [fst snd run].
    eexists. split; [reflexivity|]. by apply with_id_own.
Qed.

End AnyClient.

(** ** Handlers against the store model *)

Section OnPlatform.
Import Platform PlatformFacts.
Implicit Types (s : state) (body : object).

Lemma id_merged_with_id id (d : object) : id_merged id d (VObj (with_id id (Some d))).
Proof.
  exists (with_id id (Some d)). split; [done|]. split.
  - intros k Hk. by apply with_id_other.
  - destruct (d !! "id") as [v|] eqn:E; simpl.
    + by apply with_id_own.
    + by apply with_id_fresh.
Qed.

Lemma query_lists s coll (k : list value → value) :
  let p := Await (QueryGet coll 50) (λ o,
             match o with
             | Returned snapshot => Ret (res_json (k (Api.collect snapshot)))
             | Threw error => Ret (Api.catch error)
             end) in
  ∃ (docs : list (string * object)),
    length docs = 50 `min` size (collection s coll) ∧
    NoDup docs.*1 ∧
    (∀ id d, (id, d) ∈ docs → collection s coll !! id = Some d) ∧
    Forall2 (λ doc item, id_merged doc.1 doc.2 item) docs (Api.collect docs) ∧
    run model p s = (Response 200 (k (Api.collect docs)), s, [Event (QueryGet coll 50) None]).
Proof.
  intros p. exists (take 50 (map_to_list (collection s coll))).
  pose proof (take_drop 50 (map_to_list (collection s coll))) as Hsplit.
  pose proof (NoDup_fst_map_to_list (collection s coll)) as Hnodup.
  repeat split.
  - by rewrite length_take, length_map_to_list.
  - rewrite <- Hsplit, fmap_app in Hnodup. by apply NoDup_app in Hnodup as [? _].
  - intros id d Hin. apply elem_of_map_to_list. rewrite <- Hsplit.
    apply elem_of_app. by left.
  - unfold Api.collect. apply Forall2_fmap_r, Forall_Forall2_diag, Forall_forall.
    intros [id d] _. apply id_merged_with_id.
Qed.

(** C9, as amended: for every state of the store, GET /users and
    GET /todos answer 200 with a list built from at most 50 documents of
    the collection; each element holds the fields of its stored document
    and, under the key id, the document's identifier unless the document
    has a field id of its own, which the element then keeps. *)
Theorem get_users_get_todos_list s :
  lists_collection s "users" Api.get_users ∧ lists_collection s "todos" Api.get_todos.
Proof.
  split.
  - destruct (query_lists s "users" (λ users, VObj (obj [("users", VArr users)])))
      as (docs & Hlen & Hnd & Hin & Hall & Hrun).
    exists docs, (Api.collect docs). unfold Api.get_users. rewrite Hrun.
    repeat split; try done. lia.
  - destruct (query_lists s "todos" (λ todos, VObj (obj [("todos", VArr todos)])))
      as (docs & Hlen & Hnd & Hin & Hall & Hrun).
    exists docs, (Api.collect docs). unfold Api.get_todos. rewrite Hrun.
    repeat split; try done. lia.
Qed.




Lemma updateData_completed_only body k :
  body !! "title" = None → body !! "description" = None →
  k ≠ "completed" → k ≠ "updatedAt" →
  Api.updateData body !! k = None.
Proof.
  intros Ht Hd Hc Hu. unfold Api.updateData, Api.assign_defined.
  rewrite (get_absent _ _ Ht), (get_absent _ _ Hd). cbn [is_undefined].
  assert (String.eqb "updatedAt" k = false) as Hu' by (apply String.eqb_neq; congruence).
  destruct (is_undefined (get body "completed")).
  - rewrite obj_lookup. cbn [literal_lookup fst snd]. by rewrite Hu'.
  - rewrite lookup_insert_ne by done.
    rewrite obj_lookup. cbn [literal_lookup fst snd]. by rewrite Hu'.
Qed.

Lemma updateData_updatedAt body :
  Api.updateData body !! "updatedAt" = Some VServerTimestamp.
Proof.
  unfold Api.updateData, Api.assign_defined.
  repeat match goal with
    | |- context [if ?b then _ else _] => destruct b
    end;
    rewrite ?lookup_insert_ne by done; by rewrite obj_lookup.
Qed.

(** C2: when the todo document exists and the body of PUT /todos/:id has
    the key completed and no other, the document stored afterwards
    agrees with the document stored before on every field other than
    completed and updatedAt, title and description among them. *)
Theorem put_todo_completed_only s (id : string) (old body : object) :
  collection s "todos" !! id = Some old →
  dom body = {["completed"]} →
  let r := run model (Api.put_todo id body) s in
  ∃ new : object,
    collection (state_of r) "todos" !! id = Some new ∧
    (∀ k, k ≠ "completed" → k ≠ "updatedAt" → new !! k = old !! k) ∧
    new !! "title" = old !! "title" ∧
    new !! "description" = old !! "description" ∧
    new !! "updatedAt" = Some (VTime (now s)).
Proof.
  intros Hold Hdom r. subst r.
  assert (body !! "title" = None) as Ht.
  { apply not_elem_of_dom. rewrite Hdom. by apply not_elem_of_singleton. }
  assert (body !! "description" = None) as Hd.
  { apply not_elem_of_dom. rewrite Hdom. by apply not_elem_of_singleton. }
  exists (stored (now s) (Api.updateData body) ∪ old).
  assert (∀ k, k ≠ "completed" → k ≠ "updatedAt" →
               (stored (now s) (Api.updateData body) ∪ old) !! k = old !! k) as Hframe.
  { intros k Hc Hu. apply lookup_union_r. unfold stored.
    by rewrite lookup_omap, updateData_completed_only. }
  split; [|split; [|split; [|split]]].
  - unfold Api.put_todo, state_of. cbn [run model answer handle fst snd].
    rewrite Hold. cbn [run model answer handle fst snd].
    rewrite collection_with_firestore, lookup_insert_eq. cbn [default from_option].
    apply lookup_insert_eq.
  - exact Hframe.
  - by apply Hframe.
  - by apply Hframe.
  - apply lookup_union_Some_l. unfold stored.
    by rewrite lookup_omap, updateData_updatedAt.
Qed.

Lemma delete_twice_firestore (f : gmap string (gmap string object)) coll id :
  alter (delete id) coll (alter (delete id) coll f) = alter (delete id) coll f.
Proof.
  apply map_eq. intros c. destruct (decide (c = coll)) as [->|Hne].
  - rewrite !lookup_alter_eq. destruct (f !! coll) as [docs|]; [|done].
    simpl. f_equal. apply delete_delete_eq.
  - by rewrite !lookup_alter_ne.
Qed.

Lemma delete_absent_firestore (f : gmap string (gmap string object)) coll id :
  default ∅ (f !! coll) !! id = None →
  alter (delete id) coll f = f.
Proof.
  intros H. apply map_eq. intros c. destruct (decide (c = coll)) as [->|Hne].
  - rewrite lookup_alter_eq. destruct (f !! coll) as [docs|]; [|done].
    simpl in *. f_equal. by apply delete_id.
  - by rewrite lookup_alter_ne.
Qed.

(** C6: a second DELETE /todos/:id on an identifier whose document the
    first one deleted answers with the confirmation message and leaves
    the store as the first call left it, as does a DELETE on any
    identifier that has no document; and whatever the platform does with
    the delete, the handler settles to the confirmation or to a 500
    response carrying the error message. *)
Theorem delete_todo_twice s (id : string) :
  let first := run model (Api.delete_todo id) s in
  let second := run model (Api.delete_todo id) (state_of first) in
  let confirmation :=
    Response 200 (VObj (obj [("message", VStr "Todo deleted successfully")])) in
  collection (state_of first) "todos" !! id = None ∧
  result_of second = confirmation ∧
  state_of second = state_of first ∧
  (∀ s0, collection s0 "todos" !! id = None →
         run model (Api.delete_todo id) s0 =
         (confirmation, s0, [Event (DocDelete "todos" id) None])) ∧
  ∀ (S : Type) (cl : client S) (s' : S),
    let r := result_of (run cl (Api.delete_todo id) s') in
    r = confirmation ∨
    ∃ error, r = Response 500 (VObj (obj [("error", VStr (message error))])).
Proof.
  intros first second confirmation. subst first second confirmation.
  split; [|split; [|split; [|split]]];
    [unfold Api.delete_todo, state_of, result_of;
     cbn [run model answer handle fst snd] .. | ].
  - rewrite collection_with_firestore, lookup_alter_eq.
    destruct (firestore s !! "todos") as [docs|]; [|done].
    simpl. apply lookup_delete_eq.
  - done.
  - unfold with_firestore. cbn [firestore now accounts outbox].
    by rewrite delete_twice_firestore.
  - intros [f t a o] Habsent. unfold with_firestore, collection in *.
    cbn [firestore now accounts outbox error_of] in *.
    by rewrite delete_absent_firestore.
  - intros S cl s'. apply delete_todo_settles.
Qed.

End OnPlatform.

(** ** Concrete requests against the sample store *)

Lemma post_users_missing_field_witness :
  let body := obj [("name", VStr "Ada")] in
  let r := run Platform.model (Api.post_users body) Sample.store in
  (body !! "name" = None ∨ body !! "name" = Some (VStr "") ∨
   body !! "email" = None ∨ body !! "email" = Some (VStr "")) ∧
  result_of r = Response 400 (VObj (obj [("error", VStr "Name and email are required")])) ∧
  calls_of r = [] ∧
  state_of r = Sample.store.
Proof.
  assert (obj [("name", VStr "Ada")] !! "email" = None) as H by (vm_compute; reflexivity).
  split.
  - right. right. left. exact H.
  - apply (post_users_missing_field Platform.model Sample.store).
    right. right. left. exact H.
Defined.

Lemma callable_requires_auth_witness :
  let data := VObj (obj [("email", VStr "ada@example.org"); ("displayName", VStr "Ada")]) in
  auth (Context None) = None ∧
  run Platform.model (Callable.createUser data (Context None)) Sample.store =
    (Rejected (HttpsError "unauthenticated" "User must be authenticated"), Sample.store, []) ∧
  run Platform.model (Callable.sendNotification data (Context None)) Sample.store =
    (Rejected (HttpsError "unauthenticated" "User must be authenticated"), Sample.store, []).
Proof.
  split; [reflexivity|].
  apply (callable_requires_auth Platform.model Sample.store). reflexivity.
Defined.

Lemma store_exception_is_500_witness :
  let body := obj [("completed", VBool true)] in
  let r := run Platform.model
             (Api.app "2024-05-01T12:00:00.000Z" (Api.PUT_todos_id "t9" body)) Sample.store in
  Event (DocUpdate "todos" "t9" (Api.updateData body)) (Some (Platform.not_found "todos" "t9"))
    ∈ calls_of r ∧
  result_of r =
    Response 500 (VObj (obj [("error", VStr "NOT_FOUND: No document to update: todos/t9")])).
Proof.
  assert (Event (DocUpdate "todos" "t9" (Api.updateData (obj [("completed", VBool true)])))
            (Some (Platform.not_found "todos" "t9"))
          ∈ calls_of (run Platform.model
                        (Api.app "2024-05-01T12:00:00.000Z"
                           (Api.PUT_todos_id "t9" (obj [("completed", VBool true)])))
                        Sample.store)) as H.
  { vm_compute. constructor. }
  split; [exact H|].
  exact (store_exception_is_500 Platform.model _ _ _ _ _ H).
Defined.

Lemma post_todos_description_undefined_witness :
  let body := obj [("title", VStr "Buy milk")] in
  let r := run Platform.model (Api.post_todos body) Sample.store in
  (body !! "title" = Some (VStr "Buy milk") ∧ "Buy milk" ≠ "" ∧
   body !! "description" = None) ∧
  ∃ data : object,
    ev_call <$> calls_of r = [CollAdd "todos" data] ∧
    data !! "description" = Some VUndefined ∧
    (body !! "completed" = None → data !! "completed" = Some (VBool false)) ∧
    ∀ docRef s', handle Platform.model (CollAdd "todos" data) Sample.store = (Returned docRef, s') →
      ∃ o : object, result_of r = Response 201 (VObj o) ∧
                    o !! "description" = Some VUndefined.
Proof.
  assert (obj [("title", VStr "Buy milk")] !! "title" = Some (VStr "Buy milk")) as Ht
    by (vm_compute; reflexivity).
  assert (obj [("title", VStr "Buy milk")] !! "description" = None) as Hd
    by (vm_compute; reflexivity).
  assert ("Buy milk" ≠ "") as Hne by discriminate.
  split; [by repeat split|].
  exact (post_todos_description_undefined Platform.model Sample.store _ _ Ht Hne Hd).
Defined.



Lemma put_todo_completed_only_witness :
  let body := obj [("completed", VBool true)] in
  let r := run Platform.model (Api.put_todo "t1" body) Sample.store in
  (Platform.collection Sample.store "todos" !! "t1" = Some Sample.milk ∧
   dom body = {["completed"]}) ∧
  ∃ new : object,
    Platform.collection (state_of r) "todos" !! "t1" = Some new ∧
    (∀ k, k ≠ "completed" → k ≠ "updatedAt" → new !! k = Sample.milk !! k) ∧
    new !! "title" = Sample.milk !! "title" ∧
    new !! "description" = Sample.milk !! "description" ∧
    new !! "updatedAt" = Some (VTime (Platform.now Sample.store)).
Proof.
  assert (Platform.collection Sample.store "todos" !! "t1" = Some Sample.milk) as Hold
    by (vm_compute; reflexivity).
  assert (dom (obj [("completed", VBool true)]) = ({["completed"]} : gset string)) as Hdom
    by (vm_compute; reflexivity).
  split; [by split|].
  exact (put_todo_completed_only Sample.store "t1" _ _ Hold Hdom).
Defined.


(** C9, as stated, fails the same way: u2 is one of the two user documents
    and all of them are listed, but no element of the list carries the
    identifier u2 under the key id. *)
Lemma get_users_keeps_stored_id :
  let r := result_of (run Platform.model Api.get_users Sample.store) in
  Platform.collection Sample.store "users" !! "u2" = Some Sample.imported ∧
  size (Platform.collection Sample.store "users") = 2 ∧
  status r = 200 ∧
  ∃ items : list value,
    json r = VObj (obj [("users", VArr items)]) ∧
    length items = 2 ∧
    ∀ item, item ∈ items → field item "id" ≠ VStr "u2".
Proof.
  cbv zeta. split; [vm_compute; reflexivity|]. split; [vm_compute; reflexivity|].
  split; [vm_compute; reflexivity|].
  eexists. split; [vm_compute; reflexivity|]. split; [reflexivity|].
  intros item Hin.
  repeat (apply elem_of_cons in Hin as [->|Hin]); [..|by apply elem_of_nil in Hin];
    vm_compute; discriminate.
Qed.

(** The scenario of the spec's testable properties, on the sample store:
    create a todo, complete it, delete it. *)
Example todo_scenario :
  let r1 := run Platform.model (Api.post_todos (obj [("title", VStr "Buy milk")])) Sample.store in
  let r2 := run Platform.model (Api.put_todo "doc0" (obj [("completed", VBool true)]))
              (state_of r1) in
  let r3 := run Platform.model (Api.delete_todo "doc0") (state_of r2) in
  (status (result_of r1) = 201 ∧
   field (json (result_of r1)) "id" = VStr "doc0" ∧
   field (json (result_of r1)) "title" = VStr "Buy milk" ∧
   field (json (result_of r1)) "completed" = VBool false) ∧
  (status (result_of r2) = 200 ∧
   field (json (result_of r2)) "completed" = VBool true ∧
   field (json (result_of r2)) "title" = VStr "Buy milk" ∧
   field (json (result_of r2)) "updatedAt" = VTime 10) ∧
  (result_of r3 = Response 200 (VObj (obj [("message", VStr "Todo deleted successfully")])) ∧
   Platform.collection (state_of r3) "todos" !! "doc0" = None ∧
   Platform.collection (state_of r3) "todos" !! "t1" = Some Sample.milk).
Proof. vm_compute. repeat split. Qed.

(** A PUT on an identifier with no document: the store's update fails and
    the handler answers 500 with the store's message. *)
Example put_todo_missing :
  result_of (run Platform.model (Api.put_todo "t9" (obj [("completed", VBool true)]))
               Sample.store)
  = Response 500 (VObj (obj [("error", VStr "NOT_FOUND: No document to update: todos/t9")])).
Proof. vm_compute. reflexivity. Qed.

(** Falsy values that are not the empty string are rejected as well. *)
Example post_users_falsy_name :
  status (result_of (run Platform.model
                       (Api.post_users (obj [("name", VNum 0); ("email", VStr "z@example.org")]))
                       Sample.store)) = 400.
Proof. vm_compute. reflexivity. Qed.

(** * Further properties of the handlers *)

Lemma get_defined (o : object) k :
  is_undefined (get o k) = false → o !! k = Some (get o k).
Proof. unfold get. destruct (o !! k) as [v|]; [done|]. simpl. discriminate. Qed.

Lemma literal_lookup_is_Some k kvs :
  is_Some (literal_lookup k kvs) ↔ k ∈ kvs.*1.
Proof.
  induction kvs as [|[k' v] kvs IH]; simpl.
  - split; [by intros [? ?] | by intros ?%elem_of_nil].
  - destruct (String.eqb_spec k' k) as [->|Hne].
    + split; [intros _; apply elem_of_cons; by left | by eexists].
    + rewrite IH. split; [intros H; apply elem_of_cons; by right|].
      intros [?|?]%elem_of_cons; [congruence|done].
Qed.

Lemma obj_is_Some kvs k : is_Some (obj kvs !! k) ↔ k ∈ kvs.*1.
Proof. rewrite obj_lookup. apply literal_lookup_is_Some. Qed.

(** ** Validation and creation, against any model of the platform *)

Section Creation.
Context {S : Type} (cl : client S).

Lemma post_todos_invalid s body :
  truthy (get body "title") = false →
  run cl (Api.post_todos body) s =
  (Response 400 (VObj (obj [("error", VStr "Title is required")])), s, []).
Proof. intros H. unfold Api.post_todos. by rewrite H. Qed.

(** X1: POST /todos answers 400 exactly when the title is falsy (absent,
    null, false, 0, NaN or the empty string); the 400 response is
    [{error: "Title is required"}] and is given without calling the
    platform. *)
Theorem post_todos_400_iff s (body : object) :
  let r := run cl (Api.post_todos body) s in
  (status (result_of r) = 400 ↔ truthy (get body "title") = false) ∧
  (truthy (get body "title") = false →
   r = (Response 400 (VObj (obj [("error", VStr "Title is required")])), s, [])).
Proof.
  intros r. subst r. split; [|apply post_todos_invalid].
  destruct (truthy (get body "title")) eqn:Ht.
  - rewrite post_todos_valid by done. unfold result_of. cbn [run fst snd].
    destruct (handle cl (CollAdd "todos" (Api.todoData body)) s) as [[?|?] ?];
      cbn [fst snd run]; split; discriminate.
  - by rewrite post_todos_invalid.
Qed.

(** X2: POST /users answers 400 exactly when name or email is falsy,
    whatever its type; any other body leads to exactly one call, the
    insert into users. *)
Theorem post_users_400_iff s (body : object) :
  let r := run cl (Api.post_users body) s in
  (status (result_of r) = 400 ↔
   truthy (get body "name") = false ∨ truthy (get body "email") = false) ∧
  (status (result_of r) ≠ 400 →
   ev_call <$> calls_of r = [CollAdd "users" (Api.userData body)]).
Proof.
  intros r. subst r.
  destruct (truthy (get body "name")) eqn:Hn, (truthy (get body "email")) eqn:He;
    try (rewrite post_users_invalid by auto; split; [split; auto|done]).
  rewrite post_users_valid by done. unfold result_of, calls_of. cbn [run fst snd].
  destruct (handle cl (CollAdd "users" (Api.userData body)) s) as [[?|?] ?];
    cbn [fst snd run]; (split; [split; [discriminate|by intros [?|?]]|done]).
Qed.

(** X3: a 201 response of POST /users or POST /todos carries the
    server-timestamp sentinel itself under createdAt and updatedAt, not a
    resolved time, also when the body supplied values for these keys. *)
Theorem created_response_keeps_sentinel s (body : object) :
  let ru := result_of (run cl (Api.post_users body) s) in
  let rt := result_of (run cl (Api.post_todos body) s) in
  (status ru = 201 →
   field (json ru) "createdAt" = VServerTimestamp ∧
   field (json ru) "updatedAt" = VServerTimestamp) ∧
  (status rt = 201 →
   field (json rt) "createdAt" = VServerTimestamp ∧
   field (json rt) "updatedAt" = VServerTimestamp).
Proof.
  intros ru rt. subst ru rt. unfold result_of. split.
  - destruct (truthy (get body "name")) eqn:Hn, (truthy (get body "email")) eqn:He;
      try (rewrite post_users_invalid by auto; discriminate).
    rewrite post_users_valid by done. cbn [run fst snd].
    destruct (handle cl (CollAdd "users" (Api.userData body)) s) as [[docRef|?] ?];
      cbn [fst snd run]; [|discriminate].
    intros _. cbn [json field]. unfold get.
    rewrite !with_id_other by done. unfold Api.userData. by rewrite !obj_lookup.
  - destruct (truthy (get body "title")) eqn:Ht;
      [|rewrite post_todos_invalid by done; discriminate].
    rewrite post_todos_valid by done. cbn [run fst snd].
    destruct (handle cl (CollAdd "todos" (Api.todoData body)) s) as [[docRef|?] ?];
      cbn [fst snd run]; [|discriminate].
    intros _. cbn [json field]. unfold get.
    rewrite !with_id_other by done. unfold Api.todoData. by rewrite !obj_lookup.
Qed.

(** X4: whatever keys the request body has, the document POST /users
    hands to the store has the keys name, email, role, createdAt and
    updatedAt and no other, and the one of POST /todos has title,
    description, completed, createdAt and updatedAt and no other. *)
Theorem post_inserts_fixed_keys s (body : object) (ev : event) :
  (ev ∈ calls_of (run cl (Api.post_users body) s) →
   ∃ data : object,
     ev_call ev = CollAdd "users" data ∧
     ∀ k, is_Some (data !! k) ↔
          k ∈ ["name"; "email"; "role"; "createdAt"; "updatedAt"]) ∧
  (ev ∈ calls_of (run cl (Api.post_todos body) s) →
   ∃ data : object,
     ev_call ev = CollAdd "todos" data ∧
     ∀ k, is_Some (data !! k) ↔
          k ∈ ["title"; "description"; "completed"; "createdAt"; "updatedAt"]).
Proof.
  unfold calls_of. split.
  - destruct (truthy (get body "name")) eqn:Hn, (truthy (get body "email")) eqn:He;
      try (rewrite post_users_invalid by auto; by intros ?%elem_of_nil).
    rewrite post_users_valid by done. cbn [run fst snd].
    destruct (handle cl (CollAdd "users" (Api.userData body)) s) as [[?|?] ?];
      cbn [fst snd run]; intros ->%list_elem_of_singleton;
      (exists (Api.userData body); split; [done|]; intros k; apply obj_is_Some).
  - destruct (truthy (get body "title")) eqn:Ht;
      [|rewrite post_todos_invalid by done; by intros ?%elem_of_nil].
    rewrite post_todos_valid by done. cbn [run fst snd].
    destruct (handle cl (CollAdd "todos" (Api.todoData body)) s) as [[?|?] ?];
      cbn [fst snd run]; intros ->%list_elem_of_singleton;
      (exists (Api.todoData body); split; [done|]; intros k; apply obj_is_Some).
Qed.

End Creation.

(** ** PUT /todos/:id, against any model of the platform *)

Section Update.
Context {S : Type} (cl : client S).

Lemma updateData_field (body : object) k :
  k ∈ ["title"; "description"; "completed"] →
  Api.updateData body !! k = if is_undefined (get body k) then None else body !! k.
Proof.
  intros Hk. unfold Api.updateData, Api.assign_defined.
  repeat (apply elem_of_cons in Hk as [->|Hk]); [..|by apply elem_of_nil in Hk];
    destruct (is_undefined (get body "title")) eqn:Et,
             (is_undefined (get body "description")) eqn:Ed,
             (is_undefined (get body "completed")) eqn:Ec;
    rewrite ?lookup_insert_eq, ?lookup_insert_ne by done;
    rewrite ?lookup_insert_eq, ?lookup_insert_ne by done;
    rewrite ?lookup_insert_eq, ?lookup_insert_ne by done;
    rewrite ?obj_lookup; simpl literal_lookup;
    by rewrite ?get_defined by done.
Qed.

Lemma updateData_other (body : object) k :
  k ∉ ["title"; "description"; "completed"; "updatedAt"] →
  Api.updateData body !! k = None.
Proof.
  intros Hk.
  assert (k ≠ "title" ∧ k ≠ "description" ∧ k ≠ "completed" ∧ k ≠ "updatedAt")
    as (H1 & H2 & H3 & H4).
  { repeat split; intros ->; apply Hk; repeat constructor. }
  unfold Api.updateData, Api.assign_defined.
  repeat match goal with
    | |- context [if ?b then _ else _] => destruct b
    end;
    rewrite ?lookup_insert_ne by done;
    rewrite obj_lookup; cbn [literal_lookup fst snd];
    by apply not_eq_sym, String.eqb_neq in H4 as ->.
Qed.

(** X5: the first call of PUT /todos/:id is the update of that todo, and
    its data binds updatedAt to the server-timestamp sentinel, binds each
    of title, description and completed exactly when the body defines it
    (to the body's value, null and the empty string included), and binds
    no other key, whatever else the body holds. *)
Theorem put_todo_update_data s (id : string) (body : object) :
  ∃ (data : object) (rest : list call),
    ev_call <$> calls_of (run cl (Api.put_todo id body) s)
      = DocUpdate "todos" id data :: rest ∧
    (rest = [] ∨ rest = [DocGet "todos" id]) ∧
    data !! "updatedAt" = Some VServerTimestamp ∧
    (∀ k, k ∈ ["title"; "description"; "completed"] →
          data !! k = if is_undefined (get body k) then None else body !! k) ∧
    (∀ k, k ∉ ["title"; "description"; "completed"; "updatedAt"] →
          data !! k = None).
Proof.
  exists (Api.updateData body).
  assert (∃ rest, ev_call <$> calls_of (run cl (Api.put_todo id body) s)
                    = DocUpdate "todos" id (Api.updateData body) :: rest ∧
                  (rest = [] ∨ rest = [DocGet "todos" id])) as (rest & Hcalls & Hrest).
  { unfold calls_of, Api.put_todo. cbn [run snd].
    destruct (handle cl (DocUpdate "todos" id (Api.updateData body)) s) as [[[]|?] s1];
      cbn [fst snd run]; [|by exists []; auto].
    destruct (handle cl (DocGet "todos" id) s1) as [[?|?] ?];
      cbn [fst snd run]; exists [DocGet "todos" id]; auto. }
  exists rest. split; [done|]. split; [done|]. split; [|split].
  - apply updateData_updatedAt.
  - apply updateData_field.
  - apply updateData_other.
Qed.

(** X6: PUT /todos/:id does not check that the document it reads back
    exists: when the update returned and the read finds no document, the
    answer is 200 with a body that holds the key id and nothing else. *)
Theorem put_todo_reread_missing s s1 s2 (id id' : string) (body : object) :
  handle cl (DocUpdate "todos" id (Api.updateData body)) s = (Returned tt, s1) →
  handle cl (DocGet "todos" id) s1 = (Returned (DocSnapshot id' None), s2) →
  result_of (run cl (Api.put_todo id body) s) = Response 200 (VObj {[ "id" := VStr id' ]}).
Proof.
  intros H1 H2. unfold Api.put_todo, result_of. cbn [run]. rewrite H1.
  cbn [fst snd run]. rewrite H2. cbn [fst snd run snap_id snap_data].
  unfold res_json, with_id. simpl default. by rewrite (left_id_L ∅ (∪)).
Qed.

End Update.

Lemma put_todo_reread_missing_witness :
  let body := obj [("completed", VBool true)] in
  (handle Vanishing.model (DocUpdate "todos" "t1" (Api.updateData body)) tt
     = (Returned tt, tt) ∧
   handle Vanishing.model (DocGet "todos" "t1") tt
     = (Returned (DocSnapshot "t1" None), tt)) ∧
  result_of (run Vanishing.model (Api.put_todo "t1" body) tt)
    = Response 200 (VObj {[ "id" := VStr "t1" ]}).
Proof.
  split; [split; reflexivity|].
  exact (put_todo_reread_missing Vanishing.model tt tt tt "t1" "t1" _ eq_refl eq_refl).
Defined.

(** ** Every route, against any model of the platform *)

Ltac settle_route cl :=
  unfold Api.health, Api.get_users, Api.post_users, Api.get_user, Api.get_todos,
    Api.post_todos, Api.put_todo, Api.delete_todo;
  try match goal with |- context [if ?b then _ else _] => destruct b end;
  cbn [run fst snd];
  repeat match goal with
    | |- context [handle cl ?c ?s] =>
        destruct (handle cl c s) as [[?|?] ?]; cbn [run fst snd error_of]
    end;
  try match goal with |- context [if ?b then _ else _] => destruct b end;
  cbn [run fst snd].

Ltac split_elem H :=
  repeat (apply elem_of_cons in H as [H|H]); try (by apply elem_of_nil in H).

Section Routes.
Context {S : Type} (cl : client S).

(** X7: a route issues at most two calls, every one of them addresses the
    collection of the route (users for the /users routes, todos for the
    /todos routes), and none goes to the identity provider or to push
    messaging; /health calls nothing. *)
Theorem route_calls_own_collection iso_now (r : Api.request) s :
  let calls := calls_of (run cl (Api.app iso_now r) s) in
  length calls ≤ 2 ∧
  (route_collection r = None → calls = []) ∧
  ∀ ev, ev ∈ calls → call_collection (ev_call ev) = route_collection r.
Proof.
  unfold calls_of.
  destruct r as [| |body|id| |body|id body|id]; cbn [Api.app route_collection];
    settle_route cl; cbn [length];
    (split; [lia|]); (split; [done|]); intros ev H; split_elem H; by subst.
Qed.

(** X8: the GET routes only read: every call they issue is a query or a
    document read, whatever the platform. *)
Theorem get_routes_only_read iso_now (r : Api.request) s (ev : event) :
  is_get r = true →
  ev ∈ calls_of (run cl (Api.app iso_now r) s) →
  is_read (ev_call ev) = true.
Proof.
  unfold calls_of.
  destruct r as [| |body|id| |body|id body|id]; cbn [Api.app is_get];
    try discriminate; intros _;
    settle_route cl; intros H; split_elem H; by subst.
Qed.

(** X9: the status of a response is one of the codes of its route:
    PUT and DELETE on /todos/:id never answer 404, the list routes answer
    200 or 500, and only the POST routes answer 201 or 400. *)
Theorem route_status_codes iso_now (r : Api.request) s :
  status (result_of (run cl (Api.app iso_now r) s)) ∈ route_statuses r.
Proof.
  unfold result_of.
  destruct r as [| |body|id| |body|id body|id]; cbn [Api.app route_statuses];
    settle_route cl; cbn [status res_json res_status_json Api.catch];
    repeat constructor.
Qed.

(** X10: a response whose status is 400 or above has a body that is an
    object with the single key error, bound to a string. *)
Theorem error_response_shape iso_now (r : Api.request) s :
  let res := result_of (run cl (Api.app iso_now r) s) in
  400 ≤ status res → ∃ msg : string, json res = VObj {[ "error" := VStr msg ]}.
Proof.
  unfold result_of.
  destruct r as [| |body|id| |body|id body|id]; cbn [Api.app];
    settle_route cl; cbn [status json res_json res_status_json Api.catch];
    intros H; try lia; by eexists.
Qed.

(** X11: a route answers 500 only when a call it awaited threw: with every
    call returning, the status is below 500. *)
Theorem status_500_only_from_exception iso_now (r : Api.request) s :
  status (result_of (run cl (Api.app iso_now r) s)) = 500 →
  ∃ c error, Event c (Some error) ∈ calls_of (run cl (Api.app iso_now r) s).
Proof.
  unfold result_of, calls_of.
  destruct r as [| |body|id| |body|id body|id]; cbn [Api.app];
    settle_route cl; cbn [status res_json res_status_json Api.catch];
    intros H; try discriminate H;
    do 2 eexists; first [ by constructor | by do 2 constructor ].
Qed.

End Routes.

Lemma get_routes_only_read_witness :
  let r := Api.GET_users_id "u1" in
  let ev := Event (DocGet "users" "u1") None in
  (is_get r = true ∧
   ev ∈ calls_of (run Platform.model (Api.app "2024-05-01T12:00:00.000Z" r) Sample.store)) ∧
  is_read (ev_call ev) = true.
Proof.
  assert (Event (DocGet "users" "u1") None
          ∈ calls_of (run Platform.model
                        (Api.app "2024-05-01T12:00:00.000Z" (Api.GET_users_id "u1"))
                        Sample.store)) as H by (vm_compute; constructor).
  split; [by split|].
  exact (get_routes_only_read Platform.model _ (Api.GET_users_id "u1") _ _ eq_refl H).
Defined.

Lemma error_response_shape_witness :
  let res := result_of (run Platform.model
                          (Api.app "2024-05-01T12:00:00.000Z" (Api.POST_users ∅))
                          Sample.store) in
  400 ≤ status res ∧ ∃ msg : string, json res = VObj {[ "error" := VStr msg ]}.
Proof.
  assert (400 ≤ status (result_of (run Platform.model
                          (Api.app "2024-05-01T12:00:00.000Z" (Api.POST_users ∅))
                          Sample.store))) as H by (vm_compute; lia).
  split; [exact H|].
  exact (error_response_shape Platform.model _ _ _ H).
Defined.

Lemma status_500_only_from_exception_witness :
  let r := Api.PUT_todos_id "t9" (obj [("completed", VBool true)]) in
  let run_r := run Platform.model (Api.app "2024-05-01T12:00:00.000Z" r) Sample.store in
  status (result_of run_r) = 500 ∧
  ∃ c error, Event c (Some error) ∈ calls_of run_r.
Proof.
  assert (status (result_of (run Platform.model
                   (Api.app "2024-05-01T12:00:00.000Z"
                      (Api.PUT_todos_id "t9" (obj [("completed", VBool true)])))
                   Sample.store)) = 500) as H by (vm_compute; reflexivity).
  split; [exact H|].
  exact (status_500_only_from_exception Platform.model _ _ _ H).
Defined.

(** ** The callable functions, against any model of the platform *)

Section Callables.
Context {S : Type} (cl : client S).

(** X12: for an authenticated caller and an object payload, createUser
    issues exactly one call, the account creation, with the payload's
    email and displayName and with emailVerified false whatever the
    payload says about it; it resolves to the uid and email of the account
    the provider returned, and rejects with the code internal and the
    provider's message when the provider threw. *)
Theorem createUser_forwards s (d : object) (a : auth_data) :
  let props := obj [("email", get d "email"); ("displayName", get d "displayName");
                    ("emailVerified", VBool false)] in
  let r := run cl (Callable.createUser (VObj d) (Context (Some a))) s in
  ev_call <$> calls_of r = [AuthCreateUser props] ∧
  props !! "emailVerified" = Some (VBool false) ∧
  (∀ k, is_Some (props !! k) ↔ k ∈ ["email"; "displayName"; "emailVerified"]) ∧
  state_of r = (handle cl (AuthCreateUser props) s).2 ∧
  result_of r =
    match (handle cl (AuthCreateUser props) s).1 with
    | Returned user =>
        Resolved (VObj (obj [("uid", VStr (user_uid user)); ("email", user_email user)]))
    | Threw error => Rejected (HttpsError "internal" (message error))
    end.
Proof.
  intros props r. subst r. unfold Callable.createUser, calls_of, state_of, result_of.
  cbn [auth properties run fst snd]. fold props.
  split; [|split; [|split; [|split]]].
  - by destruct (handle cl (AuthCreateUser props) s) as [[?|?] ?].
  - subst props. by rewrite obj_lookup.
  - intros k. apply obj_is_Some.
  - by destruct (handle cl (AuthCreateUser props) s) as [[?|?] ?].
  - by destruct (handle cl (AuthCreateUser props) s) as [[?|?] ?].
Qed.

(** X13: for an authenticated caller and an object payload,
    sendNotification issues exactly one call, the send of a message made
    of the payload's token and of a notification with the payload's title
    and body and nothing else; it resolves to success true with the
    message id the provider returned, and rejects with the code internal
    and the provider's message when the provider threw. *)
Theorem sendNotification_forwards s (d : object) (a : auth_data) :
  let msg := obj [("token", get d "token");
                  ("notification",
                   VObj (obj [("title", get d "title"); ("body", get d "body")]))] in
  let r := run cl (Callable.sendNotification (VObj d) (Context (Some a))) s in
  ev_call <$> calls_of r = [MessagingSend msg] ∧
  (∀ k, is_Some (msg !! k) ↔ k ∈ ["token"; "notification"]) ∧
  state_of r = (handle cl (MessagingSend msg) s).2 ∧
  result_of r =
    match (handle cl (MessagingSend msg) s).1 with
    | Returned response =>
        Resolved (VObj (obj [("success", VBool true); ("messageId", VStr response)]))
    | Threw error => Rejected (HttpsError "internal" (message error))
    end.
Proof.
  intros msg r. subst r. unfold Callable.sendNotification, calls_of, state_of, result_of.
  cbn [auth properties run fst snd]. fold msg.
  split; [|split; [|split]].
  - by destruct (handle cl (MessagingSend msg) s) as [[?|?] ?].
  - intros k. apply obj_is_Some.
  - by destruct (handle cl (MessagingSend msg) s) as [[?|?] ?].
  - by destruct (handle cl (MessagingSend msg) s) as [[?|?] ?].
Qed.

(** X14: the payload is destructured before the try block: for an
    authenticated caller with a null or undefined payload both callables
    reject with the TypeError of the destructuring, not with an error of
    code internal, and call neither provider. *)
Theorem callable_null_payload s (data : value) (a : auth_data) :
  data = VNull ∨ data = VUndefined →
  run cl (Callable.createUser data (Context (Some a))) s = (Rejected TypeError, s, []) ∧
  run cl (Callable.sendNotification data (Context (Some a))) s = (Rejected TypeError, s, []).
Proof. intros [-> | ->]; split; reflexivity. Qed.

(** X15: a callable never calls the document store: every call it issues
    goes to the identity provider or to push messaging, and there is at
    most one. *)
Theorem callables_never_call_store s (data : value) (ctx : context) :
  let cu := calls_of (run cl (Callable.createUser data ctx) s) in
  let sn := calls_of (run cl (Callable.sendNotification data ctx) s) in
  length cu ≤ 1 ∧ length sn ≤ 1 ∧
  ∀ ev, ev ∈ cu ∨ ev ∈ sn → call_collection (ev_call ev) = None.
Proof.
  unfold calls_of, Callable.createUser, Callable.sendNotification.
  destruct (auth ctx), (properties data); cbn [run fst snd];
    repeat match goal with
      | |- context [handle cl ?c ?s] =>
          destruct (handle cl c s) as [[?|?] ?]; cbn [run fst snd error_of]
      end;
    cbn [length]; (split; [lia|]); (split; [lia|]);
    intros ev [H|H]; split_elem H; by subst.
Qed.

End Callables.

Lemma callable_null_payload_witness :
  (VNull = VNull ∨ VNull = VUndefined) ∧
  run Platform.model (Callable.createUser VNull (Context (Some (AuthData "caller")))) Sample.store
    = (Rejected TypeError, Sample.store, []) ∧
  run Platform.model (Callable.sendNotification VNull (Context (Some (AuthData "caller"))))
      Sample.store
    = (Rejected TypeError, Sample.store, []).
Proof.
  split; [by left|].
  exact (callable_null_payload Platform.model Sample.store VNull (AuthData "caller")
           (or_introl eq_refl)).
Defined.

(** ** Requests against the store model *)

Section StoreModel.
Import Platform PlatformFacts.
Implicit Types (s : state) (body : object).

Lemma collection_insert (f : gmap string (gmap string object)) s coll docs c :
  collection (with_firestore (<[coll := docs]> f) s) c =
  if decide (coll = c) then docs else default ∅ (f !! c).
Proof.
  rewrite collection_with_firestore. destruct (decide (coll = c)) as [->|Hne].
  - by rewrite lookup_insert_eq.
  - by rewrite lookup_insert_ne.
Qed.

Lemma collection_delete s coll id c :
  collection (with_firestore (alter (delete id) coll (firestore s)) s) c =
  if decide (coll = c) then delete id (collection s c) else collection s c.
Proof.
  rewrite collection_with_firestore. unfold collection.
  destruct (decide (coll = c)) as [->|Hne].
  - rewrite lookup_alter_eq. destruct (firestore s !! c); [done|].
    simpl. by rewrite delete_empty.
  - by rewrite lookup_alter_ne.
Qed.

Lemma stored_lookup t (data : object) k :
  stored t data !! k = data !! k ≫= stored_field t.
Proof. unfold stored. apply lookup_omap. Qed.

Lemma run_post_users s body :
  truthy (get body "name") = true → truthy (get body "email") = true →
  run model (Api.post_users body) s =
  (Response 201 (VObj (with_id (auto_id (collection s "users")) (Some (Api.userData body)))),
   with_firestore
     (<["users" := <[auto_id (collection s "users") := stored (now s) (Api.userData body)]>
                     (collection s "users")]> (firestore s)) s,
   [Event (CollAdd "users" (Api.userData body)) None]).
Proof. intros Hn He. by rewrite post_users_valid. Qed.

Lemma run_post_todos s body :
  truthy (get body "title") = true →
  run model (Api.post_todos body) s =
  (Response 201 (VObj (with_id (auto_id (collection s "todos")) (Some (Api.todoData body)))),
   with_firestore
     (<["todos" := <[auto_id (collection s "todos") := stored (now s) (Api.todoData body)]>
                     (collection s "todos")]> (firestore s)) s,
   [Event (CollAdd "todos" (Api.todoData body)) None]).
Proof. intros Ht. by rewrite post_todos_valid. Qed.

Lemma run_put_todo_found s id body old :
  collection s "todos" !! id = Some old →
  run model (Api.put_todo id body) s =
  (Response 200 (VObj (with_id id (Some (stored (now s) (Api.updateData body) ∪ old)))),
   with_firestore
     (<["todos" := <[id := stored (now s) (Api.updateData body) ∪ old]>
                     (collection s "todos")]> (firestore s)) s,
   [Event (DocUpdate "todos" id (Api.updateData body)) None;
    Event (DocGet "todos" id) None]).
Proof.
  intros Hold. unfold Api.put_todo. cbn [run model answer handle fst snd].
  rewrite Hold. cbn [run model answer handle fst snd error_of].
  rewrite collection_insert. rewrite decide_True by done.
  by rewrite lookup_insert_eq.
Qed.

Lemma run_put_todo_missing s id body :
  collection s "todos" !! id = None →
  run model (Api.put_todo id body) s =
  (Response 500 (VObj (obj [("error", VStr (message (not_found "todos" id)))])), s,
   [Event (DocUpdate "todos" id (Api.updateData body)) (Some (not_found "todos" id))]).
Proof.
  intros Hnone. unfold Api.put_todo. cbn [run model answer handle fst snd].
  by rewrite Hnone.
Qed.

Lemma with_id_insert id (d : object) :
  d !! "id" = None → with_id id (Some d) = <["id" := VStr id]> d.
Proof. intros H. unfold with_id. simpl. by rewrite insert_union_singleton_r. Qed.

(** X16: no request creates a field named id: when no stored document has
    one, none has one after any route has run, whatever the body of the
    request. *)
Theorem routes_keep_no_id_field iso_now (r : Api.request) s :
  no_id_field s → no_id_field (state_of (run model (Api.app iso_now r) s)).
Proof.
  intros Hinv. unfold state_of.
  destruct r as [| |body|id| |body|id body|id]; cbn [Api.app]; try exact Hinv.
  - destruct (truthy (get body "name")) eqn:Hn, (truthy (get body "email")) eqn:He;
      try (rewrite post_users_invalid by auto; exact Hinv).
    rewrite run_post_users by done. cbn [fst snd]. intros coll j d.
    rewrite collection_insert. case_decide as Hc; [|apply Hinv].
    intros [[<- <-]|[_ Hj]]%lookup_insert_Some; [|by eapply Hinv].
    rewrite stored_lookup. unfold Api.userData. by rewrite obj_lookup.
  - unfold Api.get_user. cbn [run model answer handle fst snd].
    by destruct (negb _).
  - destruct (truthy (get body "title")) eqn:Ht;
      [|rewrite post_todos_invalid by done; exact Hinv].
    rewrite run_post_todos by done. cbn [fst snd]. intros coll j d.
    rewrite collection_insert. case_decide as Hc; [|apply Hinv].
    intros [[<- <-]|[_ Hj]]%lookup_insert_Some; [|by eapply Hinv].
    rewrite stored_lookup. unfold Api.todoData. by rewrite obj_lookup.
  - destruct (collection s "todos" !! id) as [old|] eqn:Hold.
    + rewrite (run_put_todo_found _ _ _ _ Hold). cbn [fst snd]. intros coll j d.
      rewrite collection_insert. case_decide as Hc; [|apply Hinv].
      intros [[<- <-]|[_ Hj]]%lookup_insert_Some; [|by eapply Hinv].
      apply lookup_union_None. split; [|by eapply Hinv].
      rewrite stored_lookup, updateData_other; [done|].
      intros H. split_elem H; discriminate.
    + rewrite (run_put_todo_missing _ _ _ Hold). exact Hinv.
  - unfold Api.delete_todo. cbn [run model answer handle fst snd]. intros coll j d.
    rewrite collection_delete. case_decide as Hc; [|apply Hinv].
    intros [_ Hj]%lookup_delete_Some. by eapply Hinv.
Qed.

(** X17: when no stored document has a field named id, the read routes
    answer with the stored document and its identifier under id:
    GET /users/:id with exactly the document extended by id, and the two
    list routes with such an object for each document listed. *)
Theorem reads_under_no_id_field s :
  no_id_field s →
  (∀ id d, collection s "users" !! id = Some d →
     result_of (run model (Api.get_user id) s) =
     Response 200 (VObj (<["id" := VStr id]> d))) ∧
  (∃ docs : list (string * object),
     (∀ doc, doc ∈ docs → collection s "users" !! doc.1 = Some doc.2) ∧
     result_of (run model Api.get_users s) =
     Response 200
       (VObj (obj [("users", VArr ((λ doc, VObj (<["id" := VStr doc.1]> doc.2)) <$> docs))]))) ∧
  (∃ docs : list (string * object),
     (∀ doc, doc ∈ docs → collection s "todos" !! doc.1 = Some doc.2) ∧
     result_of (run model Api.get_todos s) =
     Response 200
       (VObj (obj [("todos", VArr ((λ doc, VObj (<["id" := VStr doc.1]> doc.2)) <$> docs))]))).
Proof.
  intros Hinv.
  assert (∀ coll, ∃ docs : list (string * object),
            (∀ doc, doc ∈ docs → collection s coll !! doc.1 = Some doc.2) ∧
            Api.collect (take 50 (map_to_list (collection s coll))) =
            (λ doc, VObj (<["id" := VStr doc.1]> doc.2)) <$> docs) as Hlist.
  { intros coll. exists (take 50 (map_to_list (collection s coll))).
    assert (∀ doc, doc ∈ take 50 (map_to_list (collection s coll)) →
                   collection s coll !! doc.1 = Some doc.2) as Hin.
    { intros [j d] Hd. apply elem_of_map_to_list.
      rewrite <- (take_drop 50 (map_to_list (collection s coll))).
      apply elem_of_app. by left. }
    split; [exact Hin|]. unfold Api.collect. apply list_fmap_ext.
    intros i [j d] Hd. f_equal. apply with_id_insert.
    eapply Hinv, (Hin (j, d)). by eapply list_elem_of_lookup_2. }
  split; [|split].
  - intros id d Hd. unfold Api.get_user, result_of.
    cbn [run model answer handle fst snd]. unfold snap_exists.
    cbn [snap_data snap_id]. rewrite Hd. cbn [negb run fst snd].
    unfold res_json. do 2 f_equal. apply with_id_insert. by eapply Hinv.
  - destruct (Hlist "users") as (docs & Hin & Heq). exists docs. split; [done|].
    unfold Api.get_users, result_of. cbn [run model answer handle fst snd].
    by rewrite Heq.
  - destruct (Hlist "todos") as (docs & Hin & Heq). exists docs. split; [done|].
    unfold Api.get_todos, result_of. cbn [run model answer handle fst snd].
    by rewrite Heq.
Qed.

(** X18: a user created by POST /users is read back by GET /users/:id
    under the identifier of the 201 response, with the name and email
    that were posted, the role "user" when none was posted, and both
    timestamps resolved to the time of the insert. *)
Theorem post_users_then_get_user s body (n e : string) :
  body !! "name" = Some (VStr n) → n ≠ "" →
  body !! "email" = Some (VStr e) → e ≠ "" →
  let created := run model (Api.post_users body) s in
  ∃ id : string,
    field (json (result_of created)) "id" = VStr id ∧
    let read := result_of (run model (Api.get_user id) (state_of created)) in
    status read = 200 ∧
    field (json read) "id" = VStr id ∧
    field (json read) "name" = VStr n ∧
    field (json read) "email" = VStr e ∧
    (body !! "role" = None → field (json read) "role" = VStr "user") ∧
    field (json read) "createdAt" = VTime (now s) ∧
    field (json read) "updatedAt" = VTime (now s).
Proof.
  intros Hn Hn' He He' created. subst created.
  assert (truthy (get body "name") = true) as Tn
    by (rewrite (get_lookup _ _ _ Hn); by apply truthy_VStr).
  assert (truthy (get body "email") = true) as Te
    by (rewrite (get_lookup _ _ _ He); by apply truthy_VStr).
  rewrite (run_post_users _ _ Tn Te). unfold result_of, state_of. cbn [fst snd json field].
  exists (auto_id (collection s "users")).
  assert (Api.userData body !! "id" = None) as Hid
    by (unfold Api.userData; by rewrite obj_lookup).
  split; [unfold get; by rewrite with_id_fresh|].
  unfold Api.get_user. cbn [run model answer handle fst snd]. unfold snap_exists.
  cbn [snap_data snap_id]. rewrite collection_insert, decide_True by done.
  rewrite lookup_insert_eq. cbn [negb run fst snd].
  unfold res_json. cbn [status json field]. unfold get.
  assert (stored (now s) (Api.userData body) !! "id" = None) as Hid'
    by (by rewrite stored_lookup, Hid).
  rewrite with_id_fresh by done. rewrite !with_id_other by done.
  rewrite !stored_lookup. unfold Api.userData. rewrite !obj_lookup. simpl.
  rewrite (get_lookup _ _ _ Hn), (get_lookup _ _ _ He).
  repeat split; try done.
  intros Hr. unfold get_or. by rewrite (get_absent _ _ Hr).
Qed.

(** X19: DELETE /todos/:id removes the document with that identifier and
    nothing else: the other todos, every other collection, the accounts
    and the sent messages are as before. *)
Theorem delete_todo_removes_only_it s (id : string) :
  let s' := state_of (run model (Api.delete_todo id) s) in
  collection s' "todos" = delete id (collection s "todos") ∧
  (∀ j, j ≠ id → collection s' "todos" !! j = collection s "todos" !! j) ∧
  (∀ coll, coll ≠ "todos" → collection s' coll = collection s coll) ∧
  accounts s' = accounts s ∧ outbox s' = outbox s.
Proof.
  unfold Api.delete_todo, state_of. cbn [run model answer handle fst snd].
  split; [|split; [|split]].
  - by rewrite collection_delete, decide_True.
  - intros j Hj. rewrite collection_delete, decide_True by done.
    by rewrite lookup_delete_ne.
  - intros coll Hc. by rewrite collection_delete, decide_False.
  - done.
Qed.


(** X21: PUT /todos/:id on an existing todo answers 200 with the document
    as stored afterwards, in which updatedAt is the time of the update,
    each of title, description and completed is the body's value when the
    body has one (the empty string and null included: the title is not
    validated) and the old value otherwise, and every other field,
    createdAt among them, is the old one whatever the body holds. *)
Theorem put_todo_merges s (id : string) (old body : object) :
  collection s "todos" !! id = Some old →
  let r := run model (Api.put_todo id body) s in
  ∃ new : object,
    collection (state_of r) "todos" !! id = Some new ∧
    status (result_of r) = 200 ∧
    id_merged id new (json (result_of r)) ∧
    new !! "updatedAt" = Some (VTime (now s)) ∧
    (∀ k, k ∉ ["title"; "description"; "completed"; "updatedAt"] →
          new !! k = old !! k) ∧
    (∀ k, k ∈ ["title"; "description"; "completed"] →
          body !! k = None → new !! k = old !! k) ∧
    (∀ k v, k ∈ ["title"; "description"; "completed"] →
            body !! k = Some v → stored_field (now s) v = Some v →
            new !! k = Some v).
Proof.
  intros Hold r. subst r. rewrite (run_put_todo_found _ _ _ _ Hold).
  unfold result_of, state_of. cbn [fst snd status json].
  exists (stored (now s) (Api.updateData body) ∪ old).
  split; [|split; [|split; [|split; [|split; [|split]]]]].
  - rewrite collection_insert, decide_True by done. apply lookup_insert_eq.
  - done.
  - apply id_merged_with_id.
  - apply lookup_union_Some_l. by rewrite stored_lookup, updateData_updatedAt.
  - intros k Hk. apply lookup_union_r. by rewrite stored_lookup, updateData_other.
  - intros k Hk Hb. apply lookup_union_r.
    rewrite stored_lookup, updateData_field by done.
    rewrite Hb. by destruct (is_undefined _).
  - intros k v Hk Hb Hv. apply lookup_union_Some_l.
    rewrite stored_lookup, updateData_field by done.
    rewrite (get_lookup _ _ _ Hb), Hb.
    destruct v; simpl in *; done.
Qed.

(** X22: a POST /users with a truthy name and email adds exactly one
    document to users, under an identifier that was not in use: it holds
    the fields handed to the store with the timestamps resolved, the
    documents that were there are kept, and every other collection is as
    before. *)
Theorem post_users_inserts_one s body :
  truthy (get body "name") = true → truthy (get body "email") = true →
  let s' := state_of (run model (Api.post_users body) s) in
  let id := auto_id (collection s "users") in
  collection s "users" !! id = None ∧
  collection s' "users" = <[id := stored (now s) (Api.userData body)]> (collection s "users") ∧
  size (collection s' "users") = Datatypes.S (size (collection s "users")) ∧
  (∀ j d, collection s "users" !! j = Some d → collection s' "users" !! j = Some d) ∧
  (∀ coll, coll ≠ "users" → collection s' coll = collection s coll).
Proof.
  intros Hn He s' id. subst s' id. rewrite run_post_users by done.
  unfold state_of. cbn [fst snd].
  pose proof (auto_id_fresh (collection s "users")) as Hfresh.
  split; [done|]. rewrite collection_insert, decide_True by done.
  split; [done|]. split; [by apply map_size_insert_None|]. split.
  - intros j d Hj. rewrite lookup_insert_ne; [done|]. intros <-. congruence.
  - intros coll Hc. by rewrite collection_insert, decide_False.
Qed.

End StoreModel.

Lemma clean_store_no_id_field : no_id_field Clean.store.
Proof.
  intros coll id d. unfold Platform.collection.
  destruct (Platform.firestore Clean.store !! coll) as [docs|] eqn:E;
    [|simpl; by rewrite lookup_empty].
  apply elem_of_list_to_map_2 in E. split_elem E; simplify_eq; simpl;
    (intros [[<- <-]|[_ H]]%lookup_insert_Some;
     [vm_compute; reflexivity | by rewrite lookup_empty in H]).
Qed.

Lemma routes_keep_no_id_field_witness :
  let r := Api.POST_users (obj [("id", VStr "chosen"); ("name", VStr "Eve");
                                ("email", VStr "eve@example.org")]) in
  no_id_field Clean.store ∧
  no_id_field (state_of (run Platform.model (Api.app "2024-05-01T12:00:00.000Z" r) Clean.store)).
Proof.
  split; [exact clean_store_no_id_field|].
  exact (routes_keep_no_id_field _ _ _ clean_store_no_id_field).
Defined.

Lemma reads_under_no_id_field_witness :
  no_id_field Clean.store ∧
  result_of (run Platform.model (Api.get_user "u1") Clean.store) =
  Response 200 (VObj (<["id" := VStr "u1"]> Sample.ada)).
Proof.
  split; [exact clean_store_no_id_field|].
  apply (proj1 (reads_under_no_id_field Clean.store clean_store_no_id_field)).
  vm_compute. reflexivity.
Defined.

Lemma post_users_then_get_user_witness :
  let body := obj [("name", VStr "Eve"); ("email", VStr "eve@example.org")] in
  let created := run Platform.model (Api.post_users body) Sample.store in
  (body !! "name" = Some (VStr "Eve") ∧ "Eve" ≠ "" ∧
   body !! "email" = Some (VStr "eve@example.org") ∧ "eve@example.org" ≠ "") ∧
  ∃ id : string,
    field (json (result_of created)) "id" = VStr id ∧
    let read := result_of (run Platform.model (Api.get_user id) (state_of created)) in
    status read = 200 ∧
    field (json read) "id" = VStr id ∧
    field (json read) "name" = VStr "Eve" ∧
    field (json read) "email" = VStr "eve@example.org" ∧
    (body !! "role" = None → field (json read) "role" = VStr "user") ∧
    field (json read) "createdAt" = VTime (Platform.now Sample.store) ∧
    field (json read) "updatedAt" = VTime (Platform.now Sample.store).
Proof.
  assert (obj [("name", VStr "Eve"); ("email", VStr "eve@example.org")] !! "name"
          = Some (VStr "Eve")) as Hn by (vm_compute; reflexivity).
  assert (obj [("name", VStr "Eve"); ("email", VStr "eve@example.org")] !! "email"
          = Some (VStr "eve@example.org")) as He by (vm_compute; reflexivity).
  assert ("Eve" ≠ "") as Hn' by discriminate.
  assert ("eve@example.org" ≠ "") as He' by discriminate.
  split; [by repeat split|].
  exact (post_users_then_get_user Sample.store _ _ _ Hn Hn' He He').
Defined.


Lemma put_todo_merges_witness :
  let body := obj [("title", VStr ""); ("createdAt", VTime 0)] in
  let r := run Platform.model (Api.put_todo "t1" body) Sample.store in
  Platform.collection Sample.store "todos" !! "t1" = Some Sample.milk ∧
  ∃ new : object,
    Platform.collection (state_of r) "todos" !! "t1" = Some new ∧
    status (result_of r) = 200 ∧
    new !! "title" = Some (VStr "") ∧
    new !! "createdAt" = Some (VTime 3) ∧
    new !! "updatedAt" = Some (VTime 10).
Proof.
  assert (Platform.collection Sample.store "todos" !! "t1" = Some Sample.milk) as Hold
    by (vm_compute; reflexivity).
  split; [exact Hold|].
  destruct (put_todo_merges Sample.store "t1" Sample.milk
              (obj [("title", VStr ""); ("createdAt", VTime 0)]) Hold)
    as (new & Hnew & Hst & _ & Hup & Hother & _ & Hset).
  exists new. split; [exact Hnew|]. split; [exact Hst|]. split; [|split].
  - apply (Hset "title" (VStr "")); [repeat constructor|vm_compute; reflexivity|reflexivity].
  - rewrite (Hother "createdAt"); [vm_compute; reflexivity|].
    intros H. split_elem H; discriminate.
  - exact Hup.
Defined.

Lemma post_users_inserts_one_witness :
  let body := obj [("name", VStr "Eve"); ("email", VStr "eve@example.org")] in
  let s' := state_of (run Platform.model (Api.post_users body) Sample.store) in
  let id := Platform.auto_id (Platform.collection Sample.store "users") in
  (truthy (get body "name") = true ∧ truthy (get body "email") = true) ∧
  Platform.collection Sample.store "users" !! id = None ∧
  Platform.collection s' "users" =
    <[id := Platform.stored (Platform.now Sample.store) (Api.userData body)]>
      (Platform.collection Sample.store "users") ∧
  size (Platform.collection s' "users") =
    Datatypes.S (size (Platform.collection Sample.store "users")) ∧
  (∀ j d, Platform.collection Sample.store "users" !! j = Some d →
          Platform.collection s' "users" !! j = Some d) ∧
  (∀ coll, coll ≠ "users" →
           Platform.collection s' coll = Platform.collection Sample.store coll).
Proof.
  assert (truthy (get (obj [("name", VStr "Eve"); ("email", VStr "eve@example.org")]) "name")
          = true) as Hn by (vm_compute; reflexivity).
  assert (truthy (get (obj [("name", VStr "Eve"); ("email", VStr "eve@example.org")]) "email")
          = true) as He by (vm_compute; reflexivity).
  split; [by split|].
  exact (post_users_inserts_one Sample.store _ Hn He).
Defined.

Lemma created_response_keeps_sentinel_witness :
  let body := obj [("name", VStr "Eve"); ("email", VStr "eve@example.org");
                   ("title", VStr "Buy milk"); ("createdAt", VStr "1999-01-01")] in
  let ru := result_of (run Platform.model (Api.post_users body) Sample.store) in
  let rt := result_of (run Platform.model (Api.post_todos body) Sample.store) in
  (status ru = 201 ∧ status rt = 201) ∧
  (field (json ru) "createdAt" = VServerTimestamp ∧
   field (json ru) "updatedAt" = VServerTimestamp) ∧
  (field (json rt) "createdAt" = VServerTimestamp ∧
   field (json rt) "updatedAt" = VServerTimestamp).
Proof.
  pose proof (created_response_keeps_sentinel Platform.model Sample.store
                (obj [("name", VStr "Eve"); ("email", VStr "eve@example.org");
                      ("title", VStr "Buy milk"); ("createdAt", VStr "1999-01-01")]))
    as [Hu Ht].
  assert (status (result_of (run Platform.model
            (Api.post_users (obj [("name", VStr "Eve"); ("email", VStr "eve@example.org");
                                  ("title", VStr "Buy milk");
                                  ("createdAt", VStr "1999-01-01")])) Sample.store)) = 201)
    as H1 by (vm_compute; reflexivity).
  assert (status (result_of (run Platform.model
            (Api.post_todos (obj [("name", VStr "Eve"); ("email", VStr "eve@example.org");
                                  ("title", VStr "Buy milk");
                                  ("createdAt", VStr "1999-01-01")])) Sample.store)) = 201)
    as H2 by (vm_compute; reflexivity).
  split; [by split|]. split; [exact (Hu H1)|exact (Ht H2)].
Defined.
